(** * cicd-pipeline-demo: the Flask greeting service of [app.py]

    A shallow embedding of [app.py] and of the part of Flask and Werkzeug
    that the module drives: the application object with its URL map, the
    [route] decorator, URL matching with the default and the [path]
    converters, request dispatch, [jsonify], and [Flask.run].

    Strings are [String.string]; integers (status codes, the port) are [Z];
    a Python [dict] literal is an association list; the application object
    is a record that is threaded through request handling. *)

From Stdlib Require Import String Ascii List ZArith Bool Lia.
Import ListNotations.

Set Warnings "-register-all".
Local Open Scope string_scope.
Local Open Scope list_scope.

(* ===================================================================== *)
(** ** Strings, the way the Python code and Werkzeug use them            *)
(* ===================================================================== *)

Module Str.

(** [all(p(c) for c in s)] *)
Fixpoint forallb (p : ascii -> bool) (s : string) : bool :=
  match s with
  | EmptyString => true
  | String c s' => p c && forallb p s'
  end.

(** [s.split(sep)] for a one-character separator: never the empty list. *)
Fixpoint split (sep : ascii) (s : string) : list string :=
  match s with
  | EmptyString => [EmptyString]
  | String c s' =>
      if Ascii.eqb c sep then EmptyString :: split sep s'
      else match split sep s' with
           | seg :: rest => String c seg :: rest
           | [] => [String c EmptyString]
           end
  end.

(** [s.lstrip(c)] *)
Fixpoint lstrip (c : ascii) (s : string) : string :=
  match s with
  | String c' s' => if Ascii.eqb c' c then lstrip c s' else s
  | EmptyString => EmptyString
  end.

(** [s[:-1]] when [s] ends with [c], nothing otherwise. *)
Fixpoint chop (c : ascii) (s : string) : option string :=
  match s with
  | EmptyString => None
  | String c' EmptyString => if Ascii.eqb c' c then Some EmptyString else None
  | String c' s' => option_map (String c') (chop c s')
  end.

(** [s.upper()] on the ASCII letters, which is all an HTTP method token
    can hold; other characters stay as they are. *)
Definition upper_ascii (c : ascii) : ascii :=
  let n := nat_of_ascii c in
  if Nat.leb 97 n && Nat.leb n 122 then ascii_of_nat (n - 32) else c.

Fixpoint upper (s : string) : string :=
  match s with
  | EmptyString => EmptyString
  | String c s' => String (upper_ascii c) (upper s')
  end.

Definition not_slash (c : ascii) : bool := negb (Ascii.eqb c "/").
Definition not_newline (c : ascii) : bool := negb (Ascii.eqb c "010").

End Str.

(* ===================================================================== *)
(** ** Responses and HTTP errors                                          *)
(* ===================================================================== *)

(** JSON values, as [flask.json] serialises and [Response.json] reads back. *)
Inductive JSON : Type :=
| JNull
| JBool (b : bool)
| JNumber (n : Z)
| JString (s : string)
| JArray (l : list JSON)
| JObject (d : list (string * JSON)).

(** A body, by the way it was produced.  A static file is kept apart
    from a JSON document a handler serialised, also when the two hold
    the same bytes, so responses are only compared off the static paths. *)
Inductive Body : Type :=
| EmptyBody
| JsonBody (j : JSON)              (* the serialised JSON document *)
| ErrorPage (code : Z) (name : string)  (* Werkzeug's HTML error page *)
| FileBody (data : string).

(** The part of [werkzeug.wrappers.Response] that is observable here:
    status, the Content-Type header, the Allow and Location headers, body. *)
Record Response : Type := mkResponse
  { status_code : Z;
    content_type : string;
    allow : list string;
    location : option string;
    body : Body }.

(** [Response.json]: the parsed body of a JSON response. *)
Definition json (r : Response) : option JSON :=
  match body r with
  | JsonBody j => Some j
  | _ => None
  end.

(** [d[key]] on a parsed JSON object. *)
Fixpoint assoc {A : Type} (key : string) (d : list (string * A)) : option A :=
  match d with
  | [] => None
  | (k, v) :: d' => if String.eqb k key then Some v else assoc key d'
  end.

Definition getitem (j : option JSON) (key : string) : option JSON :=
  match j with
  | Some (JObject d) => assoc key d
  | _ => None
  end.

(** [werkzeug.exceptions] raised by routing and by views. *)
Inductive HTTPException : Type :=
| NotFound
| MethodNotAllowed (valid_methods : list string)
| RequestRedirect (new_path : string)
| InternalServerError.

Definition html : string := "text/html; charset=utf-8".

(** [HTTPException.get_response]: the framework's default error responses.
    The redirect target is kept as a path; scheme and host are not modelled. *)
Definition get_response (e : HTTPException) : Response :=
  match e with
  | NotFound => mkResponse 404 html [] None (ErrorPage 404 "Not Found")
  | MethodNotAllowed ms =>
      mkResponse 405 html ms None (ErrorPage 405 "Method Not Allowed")
  | RequestRedirect p =>
      mkResponse 308 html [] (Some p) (ErrorPage 308 "Permanent Redirect")
  | InternalServerError =>
      mkResponse 500 html [] None (ErrorPage 500 "Internal Server Error")
  end.

(* ===================================================================== *)
(** ** Werkzeug routing                                                   *)
(* ===================================================================== *)

Module routing.

(** The converters the rules of this application use:
    [UnicodeConverter] (regex [[^/]{1,}], the default) and
    [PathConverter] (regex [[^/].*?], which may span segments). *)
Inductive Converter : Type := UnicodeConverter | PathConverter.

Inductive Part : Type :=
| Static (text : string)
| Dynamic (conv : Converter) (variable : string).

(** [werkzeug.routing.Rule]. *)
Record Rule : Type := mkRule
  { rule : string;
    methods : list string;
    endpoint : string;
    provide_automatic_options : bool }.

Definition get_converter (name : string) : option Converter :=
  if String.eqb name "default" then Some UnicodeConverter
  else if String.eqb name "string" then Some UnicodeConverter
  else if String.eqb name "path" then Some PathConverter
  else None.

(** One slash-separated piece of a rule: static text, [<variable>] or
    [<converter:variable>].  Pieces mixing text and variables, converter
    arguments and the other converters are outside the fragment. *)
Definition parse_part (seg : string) : option Part :=
  match seg with
  | String "<" inner =>
      match Str.chop ">" inner with
      | Some spec =>
          match Str.split ":" spec with
          | [variable] => Some (Dynamic UnicodeConverter variable)
          | [conv; variable] =>
              option_map (fun c => Dynamic c variable) (get_converter conv)
          | _ => None
          end
      | None => None
      end
  | _ =>
      if Str.forallb (fun c => negb (Ascii.eqb c "<")) seg
      then Some (Static seg) else None
  end.

Fixpoint parse_parts (segs : list string) : option (list Part) :=
  match segs with
  | [] => Some []
  | seg :: segs' =>
      match parse_part seg, parse_parts segs' with
      | Some p, Some ps => Some (p :: ps)
      | _, _ => None
      end
  end.

(** A rule must start with a slash ([ValueError] otherwise). *)
Definition parse_rule (r : string) : option (list Part) :=
  match Str.split "/" r with
  | EmptyString :: segs => parse_parts segs
  | _ => None
  end.

(** The two converter regexes, anchored at both ends. *)
Definition unicode_matches (s : string) : bool :=
  negb (String.eqb s "") && Str.forallb Str.not_slash s.

Definition path_matches (s : string) : bool :=
  match s with
  | EmptyString => false
  | String c s' => Str.not_slash c && Str.forallb Str.not_newline s'
  end.

(** Matching the parts of a leaf rule (no trailing slash, strict slashes)
    against the segments of the request path.  A [path] variable is
    final: it is matched against all the remaining segments joined. *)
Fixpoint match_parts (parts : list Part) (segs : list string)
  : option (list (string * string)) :=
  match parts, segs with
  | [], [] => Some []
  | Static text :: parts', seg :: segs' =>
      if String.eqb text seg then match_parts parts' segs' else None
  | Dynamic UnicodeConverter v :: parts', seg :: segs' =>
      if unicode_matches seg
      then option_map (cons (v, seg)) (match_parts parts' segs')
      else None
  | Dynamic PathConverter v :: [], seg :: segs' =>
      let target := String.concat "/" (seg :: segs') in
      if path_matches target then Some [(v, target)] else None
  | _, _ => None
  end.

Definition match_path (r : Rule) (path : string)
  : option (list (string * string)) :=
  match parse_rule (rule r), Str.split "/" path with
  | Some parts, EmptyString :: segs => match_parts parts segs
  | _, _ => None
  end.

Definition allows (r : Rule) (method : string) : bool :=
  existsb (String.eqb method) (methods r).

(** One pass of the matcher over the rules: the first rule whose pattern
    matches the path and whose methods contain the request method.  (The
    rules registered here start with different static segments, so at
    most one pattern matches a path and Werkzeug's weight order does not
    matter.) *)
Fixpoint find_rule (m : list Rule) (path method : string)
  : option (Rule * list (string * string)) :=
  match m with
  | [] => None
  | r :: m' =>
      match match_path r path with
      | Some args =>
          if allows r method then Some (r, args)
          else find_rule m' path method
      | None => find_rule m' path method
      end
  end.

(** [have_match_for.update(rule.methods)]: a set, kept without
    duplicates in the order of arrival. *)
Definition add (x : string) (l : list string) : list string :=
  if existsb (String.eqb x) l then l else l ++ [x].

Definition update (acc new : list string) : list string :=
  fold_left (fun a x => add x a) new acc.

(** The methods of the rules that matched the path but not the method,
    added to those already seen. *)
Fixpoint have_match_for (m : list Rule) (path method : string)
    (seen : list string) : list string :=
  match m with
  | [] => seen
  | r :: m' =>
      match match_path r path with
      | Some _ =>
          if allows r method then have_match_for m' path method seen
          else have_match_for m' path method (update seen (methods r))
      | None => have_match_for m' path method seen
      end
  end.

(** [re.sub("/{2,}?", "/", path)]: each pair of slashes, left to right
    and without overlap, becomes one slash. *)
Fixpoint merge_slashes (s : string) : string :=
  match s with
  | EmptyString => EmptyString
  | String c rest =>
      match rest with
      | EmptyString => String c EmptyString
      | String c' rest' =>
          if Ascii.eqb c "/" && Ascii.eqb c' "/"
          then String "/" (merge_slashes rest')
          else String c (merge_slashes rest)
      end
  end.

(** The path the matcher works on: leading slashes collapse to one. *)
Definition path_part (path_info : string) : string :=
  match path_info with
  | EmptyString => EmptyString
  | _ => String "/" (Str.lstrip "/" path_info)
  end.

(** [MapAdapter.match] with the defaults of [Map] ([strict_slashes] and
    [merge_slashes] on): the method is compared in upper case; a path
    that only matches once its doubled slashes are merged is redirected
    to the merged path; a path that matched a rule for other methods is
    a 405, any other unmatched path a 404. *)
Definition match_ (m : list Rule) (path_info method : string)
  : (Rule * list (string * string)) + HTTPException :=
  let method := Str.upper method in
  let path_part := path_part path_info in
  match find_rule m path_part method with
  | Some rv => inl rv
  | None =>
      let merged := merge_slashes path_part in
      match find_rule m merged method with
      | Some _ => inr (RequestRedirect merged)
      | None =>
          match have_match_for m merged method
                  (have_match_for m path_part method []) with
          | [] => inr NotFound
          | valid => inr (MethodNotAllowed valid)
          end
      end
  end.

End routing.
Import routing.

(* ===================================================================== *)
(** ** Flask                                                              *)
(* ===================================================================== *)

(** A request as the WSGI layer hands it over: the method and the decoded
    path ([PATH_INFO]). *)
Record Request : Type := mkRequest
  { method : string;
    path : string }.

(** [Request(environ)]: the request object the server builds from
    [REQUEST_METHOD] and [PATH_INFO]; its method is in upper case. *)
Definition Request_ (REQUEST_METHOD PATH_INFO : string) : Request :=
  mkRequest (Str.upper REQUEST_METHOD) PATH_INFO.

(** The static folder next to the module, as [send_from_directory] sees
    it: the file served for a name, if there is one. *)
Record File : Type := mkFile
  { file_mimetype : string;
    file_data : string }.

Definition FileSystem : Type := string -> option File.

(** A view function, called with the keyword arguments the rule captured.
    It returns a response or raises an HTTP error. *)
Definition View : Type :=
  FileSystem -> list (string * string) -> Response + HTTPException.

Module flask.

(** [flask.Flask]: the URL map, the endpoint table, the one configuration
    key [run] reads (host and port of [SERVER_NAME], already split), and
    the flag that request handling sets and set-up methods check. *)
Record Flask : Type := mkFlask
  { import_name : string;
    url_map : list Rule;
    view_functions : list (string * View);
    SERVER_NAME : option (string * option Z);
    got_first_request : bool }.

(** [flask.jsonify(d)]: a 200 response of mimetype [application/json]
    whose body is the serialisation of [d]. *)
Definition jsonify (d : list (string * JSON)) : Response :=
  mkResponse 200 "application/json" [] None (JsonBody (JObject d)).

(** [Flask.send_static_file], for a plain request on a readable file: the
    file or a 404.  Conditional and range requests (304, 206, 416) and
    read errors need request headers and are outside the model. *)
Definition send_static_file : View :=
  fun fs kwargs =>
    match kwargs with
    | [(k, filename)] =>
        if String.eqb k "filename" then
          match fs filename with
          | Some f =>
              inl (mkResponse 200 (file_mimetype f) [] None
                     (FileBody (file_data f)))
          | None => inr NotFound
          end
        else inr InternalServerError
    | _ => inr InternalServerError
    end.

(** [Flask.add_url_rule(rule, endpoint, view_func)] with the default
    [methods]: GET, to which Flask adds OPTIONS (answered automatically)
    and Werkzeug adds HEAD.  It fails ([None]) once a request has been
    handled, when the rule does not parse, and when the endpoint is
    already bound. *)
Definition add_url_rule (rule endpoint : string) (view_func : View)
    (app : Flask) : option Flask :=
  if got_first_request app then None
  else
    let methods := ["GET"] in
    let auto := negb (existsb (String.eqb "OPTIONS") methods) in
    let methods := if auto then add "OPTIONS" methods else methods in
    let methods :=
      if existsb (String.eqb "GET") methods
      then add "HEAD" methods else methods in
    match parse_rule rule, assoc endpoint (view_functions app) with
    | Some _, None =>
        Some (mkFlask (import_name app)
                (url_map app ++ [mkRule rule methods endpoint auto])
                (view_functions app ++ [(endpoint, view_func)])
                (SERVER_NAME app)
                (got_first_request app))
    | _, _ => None
    end.

(** An application object with no rule yet. *)
Definition empty (import_name : string) : Flask :=
  mkFlask import_name [] [] None false.

(** [Flask(import_name)]: with the default [static_folder="static"] the
    constructor registers the rule [/static/<path:filename>]. *)
Definition Flask_ (import_name : string) : option Flask :=
  add_url_rule "/static/<path:filename>" "static" send_static_file
    (empty import_name).

(** [@app.route(rule)] above [def f]: the endpoint is [f.__name__]. *)
Definition route (rule : string) (f__name__ : string) (f : View)
    (app : Flask) : option Flask :=
  add_url_rule rule f__name__ f app.

(** [Flask.make_default_options_response]: the methods the path allows. *)
Definition make_default_options_response (r : Rule) : Response :=
  mkResponse 200 html (methods r) None EmptyBody.

(** [Flask.full_dispatch_request], up to the response the server sends:
    routing errors and errors raised by the view become their default
    responses, OPTIONS is answered automatically, and the answer to a
    HEAD request, whatever it is, goes out without its body. *)
Definition full_dispatch_request (fs : FileSystem) (app : Flask)
    (req : Request) : Response :=
  let rv :=
    match match_ (url_map app) (path req) (method req) with
    | inr e => get_response e
    | inl (r, view_args) =>
        if provide_automatic_options r && String.eqb (method req) "OPTIONS"
        then make_default_options_response r
        else
          match assoc (endpoint r) (view_functions app) with
          | None => get_response InternalServerError
          | Some view =>
              match view fs view_args with
              | inr e => get_response e
              | inl rv => rv
              end
          end
    end in
  if String.eqb (method req) "HEAD"
  then mkResponse (status_code rv) (content_type rv) (allow rv)
         (location rv) EmptyBody
  else rv.

(** [Flask.wsgi_app]: one request.  The only thing it writes on the
    application object is the first-request flag. *)
Definition wsgi_app (fs : FileSystem) (app : Flask) (req : Request)
    : Response * Flask :=
  let app' := mkFlask (import_name app) (url_map app) (view_functions app)
                (SERVER_NAME app) true in
  (full_dispatch_request fs app' req, app').

(** The server loop over a finite run: each request comes with the
    static folder as it is at that moment. *)
Fixpoint serve (app : Flask) (run : list (FileSystem * Request))
    : list Response * Flask :=
  match run with
  | [] => ([], app)
  | (fs, req) :: run' =>
      let '(resp, app') := wsgi_app fs app req in
      let '(resps, app'') := serve app' run' in
      (resp :: resps, app'')
  end.

(** [Flask.run(host, port)]: the address handed to the development
    server.  The call is ignored under the [flask] command line
    ([FLASK_RUN_FROM_CLI]); arguments that are given win over
    [SERVER_NAME], which wins over the defaults 127.0.0.1 and 5000. *)
Definition run (environ : string -> option string) (app : Flask)
    (host : option string) (port : option Z) : option (string * Z) :=
  let from_cli :=
    match environ "FLASK_RUN_FROM_CLI" with
    | Some v => String.eqb v "true"
    | None => false
    end in
  if from_cli then None
  else
    let sn_host := option_map fst (SERVER_NAME app) in
    let sn_port :=
      match SERVER_NAME app with
      | Some (_, p) => p
      | None => None
      end in
    let host :=
      match host with
      | Some h => if String.eqb h "" then None else Some h
      | None => None
      end in
    let host :=
      match host, sn_host with
      | Some h, _ => h
      | None, Some h => if String.eqb h "" then "127.0.0.1" else h
      | None, None => "127.0.0.1"
      end in
    let port :=
      match port, sn_port with
      | Some p, _ => p
      | None, Some p => p
      | None, None => 5000%Z
      end in
    Some (host, port).

End flask.
Import flask.

(* ===================================================================== *)
(** ** app.py                                                             *)
(* ===================================================================== *)

(** [def hello(name)]: return a personalized greeting. *)
Definition hello (name : string) : Response :=
  jsonify [("message", JString ("Hello, " ++ name ++ "!"))].

(** [def health()]: health check endpoint for monitoring. *)
Definition health (_ : unit) : Response :=
  jsonify [("status", JString "healthy")].

(** The two functions as Flask calls them, with keyword arguments: a call
    that does not fit the signature is a [TypeError], a 500. *)
Definition hello_view : View :=
  fun _ kwargs =>
    match kwargs with
    | [(k, name)] =>
        if String.eqb k "name" then inl (hello name)
        else inr InternalServerError
    | _ => inr InternalServerError
    end.

Definition health_view : View :=
  fun _ kwargs =>
    match kwargs with
    | [] => inl (health tt)
    | _ => inr InternalServerError
    end.

Definition bind {A B : Type} (x : option A) (f : A -> option B) : option B :=
  match x with
  | Some a => f a
  | None => None
  end.

(** The top level of the module, run once at import:
    [app = Flask(__name__)] and the two decorated definitions. *)
Definition load (__name__ : string) : option Flask :=
  bind (Flask_ __name__) (fun app =>
  bind (route "/hello/<name>" "hello" hello_view app) (fun app =>
  route "/health" "health" health_view app)).

(** The application object after import. *)
Definition app (__name__ : string) : Flask :=
  match load __name__ with
  | Some a => a
  | None => empty __name__
  end.

(** [if __name__ == '__main__': app.run(host='0.0.0.0', port=5000)].
    The process arguments and environment are inputs of the program; the
    module itself reads neither. *)
Definition main (__name__ : string) (argv : list string)
    (environ : string -> option string) : option (string * Z) :=
  if String.eqb __name__ "__main__"
  then run environ (app __name__) (Some "0.0.0.0") (Some 5000%Z)
  else None.

(** Requests by method, as the test client builds them. *)
Definition GET (p : string) : Request := mkRequest "GET" p.

(** A deployment without a static folder, as the repository ships. *)
Definition no_static_folder : FileSystem := fun _ => None.

(** The environment the [flask] command leaves behind. *)
Definition environ_FLASK_RUN_FROM_CLI : string -> option string :=
  fun k => if String.eqb k "FLASK_RUN_FROM_CLI" then Some "true" else None.

(** An environment that sets [FLASK_DEBUG] and nothing else. *)
Definition environ_FLASK_DEBUG : string -> option string :=
  fun k => if String.eqb k "FLASK_DEBUG" then Some "1" else None.

(** The response to [req] once the requests of [run] have been served. *)
Definition response_after (__name__ : string)
    (run : list (FileSystem * Request)) (fs : FileSystem) (req : Request)
    : Response :=
  fst (wsgi_app fs (snd (serve (app __name__) run)) req).

(** The URL shapes the three rules of the map stand for. *)
Definition is_hello_path (p : string) : Prop :=
  exists s, unicode_matches s = true /\ p = ("/hello/" ++ s)%string.

Definition is_health_path (p : string) : Prop := p = "/health".

Definition is_static_path (p : string) : Prop :=
  exists f, path_matches f = true /\ p = ("/static/" ++ f)%string.

Definition routed (p : string) : Prop :=
  is_static_path p \/ is_hello_path p \/ is_health_path p.

Definition hello_rule : Rule :=
  mkRule "/hello/<name>" ["GET"; "OPTIONS"; "HEAD"] "hello" true.
Definition health_rule : Rule :=
  mkRule "/health" ["GET"; "OPTIONS"; "HEAD"] "health" true.
Definition static_rule : Rule :=
  mkRule "/static/<path:filename>" ["GET"; "OPTIONS"; "HEAD"] "static" true.

(** What the server sends for a view's return value [rv]: for a HEAD
    request the headers without the body. *)
Definition sent (method : string) (rv : Response) : Response :=
  if String.eqb method "HEAD"
  then mkResponse (status_code rv) (content_type rv) (allow rv)
         (location rv) EmptyBody
  else rv.

(** The automatic answer to OPTIONS on any of the three rules. *)
Definition options_response : Response :=
  mkResponse 200 html ["GET"; "OPTIONS"; "HEAD"] None EmptyBody.

(* ===================================================================== *)
(** ** test_app.py                                                        *)
(* ===================================================================== *)

Module test_app.

(** The imported [app] as the tests see it: the application object and
    its [config['TESTING']], which the fixture switches on. *)
Record Env : Type := mkEnv
  { application : Flask;
    TESTING : bool }.

(** [from app import app]: the module is loaded under the name "app". *)
Definition imported : Env := mkEnv (app "app") false.

(** [def client()]: [app.config['TESTING'] = True], then a test client
    on the application. *)
Definition client (e : Env) : Env := mkEnv (application e) true.

(** [client.get(path)]: one GET through [wsgi_app].  With [TESTING] on
    an unhandled error of a view is not turned into a 500 response: it
    propagates out of the call ([None]). *)
Definition get (fs : FileSystem) (c : Env) (p : string)
    : option Response * Env :=
  let '(response, a) := wsgi_app fs (application c) (GET p) in
  (if TESTING c && (status_code response =? 500)%Z then None
   else Some response,
   mkEnv a (TESTING c)).

(** [j == s] for a parsed JSON value and a string. *)
Definition str_eq (j : option JSON) (s : string) : bool :=
  match j with
  | Some (JString t) => String.eqb t s
  | _ => false
  end.

(** [def test_hello_endpoint(client)]: whether both assertions hold. *)
Definition hello_endpoint (fs : FileSystem) (c : Env) : bool * Env :=
  match get fs c "/hello/World" with
  | (Some response, c') =>
      ((status_code response =? 200)%Z
       && str_eq (getitem (json response) "message") "Hello, World!", c')
  | (None, c') => (false, c')
  end.

(** [def test_health_endpoint(client)]. *)
Definition health_endpoint (fs : FileSystem) (c : Env) : bool * Env :=
  match get fs c "/health" with
  | (Some response, c') =>
      ((status_code response =? 200)%Z
       && str_eq (getitem (json response) "status") "healthy", c')
  | (None, c') => (false, c')
  end.

Inductive Test : Type := test_hello | test_health.

(** One test as pytest runs it: the fixture, then the test function. *)
Definition run_test (t : Test) (fs : FileSystem) (e : Env) : bool * Env :=
  match t with
  | test_hello => hello_endpoint fs (client e)
  | test_health => health_endpoint fs (client e)
  end.

(** A session: the selected tests in the given order on the one imported
    application, each with the static folder as it is at that moment. *)
Fixpoint session (tests : list (Test * FileSystem)) (e : Env)
    : list bool * Env :=
  match tests with
  | [] => ([], e)
  | (t, fs) :: tests' =>
      let '(passed, e') := run_test t fs e in
      let '(results, e'') := session tests' e' in
      (passed :: results, e'')
  end.

(** The application still has the rules and bindings it was loaded with. *)
Definition loaded (e : Env) : Prop :=
  url_map (application e) = url_map (app "app") /\
  view_functions (application e) = view_functions (app "app").

End test_app.

(* ===================================================================== *)
(** ** The tests of test_app.py                                           *)
(* ===================================================================== *)

Example test_hello_endpoint :
  let response :=
    full_dispatch_request no_static_folder (app "app") (GET "/hello/World") in
  status_code response = 200%Z /\
  getitem (json response) "message" = Some (JString "Hello, World!").
Proof. split; reflexivity. Qed.

Example test_health_endpoint :
  let response :=
    full_dispatch_request no_static_folder (app "app") (GET "/health") in
  status_code response = 200%Z /\
  getitem (json response) "status" = Some (JString "healthy").
Proof. split; reflexivity. Qed.

(* ===================================================================== *)
(** ** Strings: splitting and joining                                     *)
(* ===================================================================== *)

Section StringFacts.

Lemma split_not_nil (sep : ascii) (s : string) : Str.split sep s <> [].
Proof.
  destruct s as [|c s]; simpl; [discriminate|].
  destruct (Ascii.eqb c sep); [discriminate|].
  destruct (Str.split sep s); discriminate.
Qed.

Lemma split_no_sep (s : string) :
  Str.forallb Str.not_slash s = true -> Str.split "/" s = [s].
Proof.
  induction s as [|c s IH]; simpl; [reflexivity|].
  unfold Str.not_slash at 1.
  intros H. apply andb_true_iff in H as [Hc Hs].
  apply negb_true_iff in Hc. rewrite Hc, (IH Hs). reflexivity.
Qed.

Lemma split_sep (s : string) :
  Str.forallb Str.not_slash s = false ->
  exists a b rest, Str.split "/" s = a :: b :: rest.
Proof.
  induction s as [|c s IH]; simpl; [discriminate|].
  unfold Str.not_slash at 1.
  destruct (Ascii.eqb c "/") eqn:Hc; simpl.
  - intros _. destruct (Str.split "/" s) as [|b rest] eqn:E.
    + exfalso. exact (split_not_nil _ _ E).
    + exists "", b, rest. reflexivity.
  - intros H. destruct (IH H) as (a & b & rest & E). rewrite E.
    exists (String c a), b, rest. reflexivity.
Qed.

Lemma split_seg (a s : string) :
  Str.forallb Str.not_slash a = true ->
  Str.split "/" (a ++ String "/" s) = a :: Str.split "/" s.
Proof.
  induction a as [|c a IH]; simpl; [reflexivity|].
  unfold Str.not_slash at 1.
  intros H. apply andb_true_iff in H as [Hc Ha].
  apply negb_true_iff in Hc. rewrite Hc, (IH Ha). reflexivity.
Qed.

Lemma concat_cons (x : string) (l : list string) :
  l <> [] ->
  String.concat "/" (x :: l) = (x ++ "/" ++ String.concat "/" l)%string.
Proof. destruct l; [congruence|reflexivity]. Qed.

Lemma concat_split (s : string) :
  String.concat "/" (Str.split "/" s) = s.
Proof.
  induction s as [|c s IH]; simpl; [reflexivity|].
  destruct (Ascii.eqb c "/") eqn:Hc.
  - apply Ascii.eqb_eq in Hc. subst c.
    rewrite concat_cons by apply split_not_nil. rewrite IH. reflexivity.
  - destruct (Str.split "/" s) as [|seg rest] eqn:E.
    + exfalso. exact (split_not_nil _ _ E).
    + destruct rest as [|r rest]; simpl in *; rewrite <- IH; reflexivity.
Qed.

Lemma length_app (a b : string) :
  String.length (a ++ b) = String.length a + String.length b.
Proof. induction a as [|c a IH]; simpl; [reflexivity|now rewrite IH]. Qed.

Lemma append_inv_tail (a b t : string) :
  (a ++ t)%string = (b ++ t)%string -> a = b.
Proof.
  intros H.
  assert (L : String.length a = String.length b).
  { apply (f_equal String.length) in H.
    rewrite !length_app in H. lia. }
  revert b H L. induction a as [|c a IH]; intros [|d b] H L;
    simpl in *; try discriminate; [reflexivity|].
  injection H as -> H. f_equal. apply IH; [assumption|lia].
Qed.

Lemma upper_ascii_idem (c : ascii) :
  Str.upper_ascii (Str.upper_ascii c) = Str.upper_ascii c.
Proof. destruct c as [[] [] [] [] [] [] [] []]; reflexivity. Qed.

Lemma upper_idem (s : string) : Str.upper (Str.upper s) = Str.upper s.
Proof.
  induction s as [|c s IH]; simpl; [reflexivity|].
  rewrite upper_ascii_idem, IH. reflexivity.
Qed.

End StringFacts.

(* ===================================================================== *)
(** ** The URL map of the application                                     *)
(* ===================================================================== *)

Section UrlMap.

Variable __name__ : string.

Lemma app_eq :
  app __name__ =
  mkFlask __name__ [static_rule; hello_rule; health_rule]
    [("static", send_static_file); ("hello", hello_view);
     ("health", health_view)]
    None false.
Proof. reflexivity. Qed.

Lemma load_ok : load __name__ = Some (app __name__).
Proof. reflexivity. Qed.

Lemma parse_hello :
  parse_rule (rule hello_rule)
  = Some [Static "hello"; Dynamic UnicodeConverter "name"].
Proof. reflexivity. Qed.

Lemma parse_health : parse_rule (rule health_rule) = Some [Static "health"].
Proof. reflexivity. Qed.

Lemma parse_static :
  parse_rule (rule static_rule)
  = Some [Static "static"; Dynamic PathConverter "filename"].
Proof. reflexivity. Qed.

(** A path that a rule matches has the shape the rule stands for. *)
Lemma match_hello_inv (p : string) (args : list (string * string)) :
  match_path hello_rule p = Some args ->
  exists s, unicode_matches s = true /\ p = ("/hello/" ++ s)%string
            /\ args = [("name", s)].
Proof.
  unfold match_path. rewrite parse_hello.
  destruct (Str.split "/" p) as [|s0 segs] eqn:E; [discriminate|].
  destruct s0; [|discriminate].
  destruct segs as [|s1 [|s2 [|s3 segs]]]; cbn [match_parts option_map];
    try discriminate.
  - destruct (String.eqb "hello" s1); discriminate.
  - destruct (String.eqb "hello" s1) eqn:H1; [|discriminate].
    apply String.eqb_eq in H1. subst s1.
    destruct (unicode_matches s2) eqn:H2; [|discriminate].
    intros [= <-]. exists s2. repeat split; [assumption|].
    rewrite <- (concat_split p), E. reflexivity.
  - destruct (String.eqb "hello" s1); [|discriminate].
    destruct (unicode_matches s2); discriminate.
Qed.

Lemma match_health_inv (p : string) (args : list (string * string)) :
  match_path health_rule p = Some args -> p = "/health" /\ args = [].
Proof.
  unfold match_path. rewrite parse_health.
  destruct (Str.split "/" p) as [|s0 segs] eqn:E; [discriminate|].
  destruct s0; [|discriminate].
  destruct segs as [|s1 [|s2 segs]]; cbn [match_parts option_map];
    try discriminate.
  - destruct (String.eqb "health" s1) eqn:H1; [|discriminate].
    apply String.eqb_eq in H1. subst s1. intros [= <-]. split; [|reflexivity].
    rewrite <- (concat_split p), E. reflexivity.
  - destruct (String.eqb "health" s1); discriminate.
Qed.

Lemma match_static_inv (p : string) (args : list (string * string)) :
  match_path static_rule p = Some args ->
  exists f, path_matches f = true /\ p = ("/static/" ++ f)%string
            /\ args = [("filename", f)].
Proof.
  unfold match_path. rewrite parse_static.
  destruct (Str.split "/" p) as [|s0 segs] eqn:E; [discriminate|].
  destruct s0; [|discriminate].
  destruct segs as [|s1 [|s2 segs]]; try discriminate.
  - cbn [match_parts]. destruct (String.eqb "static" s1); discriminate.
  - cbn [match_parts].
    destruct (String.eqb "static" s1) eqn:H1; [|discriminate].
    apply String.eqb_eq in H1. subst s1.
    destruct (path_matches _) eqn:H2; [|discriminate].
    intros [= <-]. eexists. repeat split; [exact H2|].
    rewrite <- (concat_split p), E. reflexivity.
Qed.

(** Conversely, every path of such a shape is matched by its rule. *)
Lemma split_hello (s : string) :
  unicode_matches s = true ->
  Str.split "/" ("/hello/" ++ s) = [""; "hello"; s]%string.
Proof.
  unfold unicode_matches. intros H. apply andb_true_iff in H as [_ H].
  simpl. rewrite (split_no_sep _ H). reflexivity.
Qed.

Lemma match_hello (s : string) :
  unicode_matches s = true ->
  match_path hello_rule ("/hello/" ++ s) = Some [("name", s)].
Proof.
  intros H. unfold match_path. rewrite parse_hello, (split_hello _ H).
  simpl. rewrite H. reflexivity.
Qed.

Lemma match_health : match_path health_rule "/health" = Some [].
Proof. reflexivity. Qed.

Lemma match_static (f : string) :
  path_matches f = true ->
  match_path static_rule ("/static/" ++ f) = Some [("filename", f)].
Proof.
  intros H. unfold match_path. rewrite parse_static.
  change ("/static/" ++ f)%string
    with ("" ++ String "/" ("static" ++ String "/" f))%string.
  rewrite !split_seg by reflexivity.
  destruct (Str.split "/" f) as [|seg rest] eqn:E.
  - exfalso. exact (split_not_nil _ _ E).
  - cbn [match_parts]. change (String.eqb "static" "static") with true.
    cbv iota. rewrite <- E, concat_split, H. reflexivity.
Qed.

Lemma routed_matched (p : string) :
  routed p <->
  exists r args,
    In r (url_map (app __name__)) /\ match_path r p = Some args.
Proof.
  rewrite app_eq. cbn [url_map In]. split.
  - intros [(f & Hf & ->) | [(s & Hs & ->) | ->]].
    + exists static_rule, [("filename", f)]. auto using match_static.
    + exists hello_rule, [("name", s)]. auto using match_hello.
    + exists health_rule, []. auto using match_health.
  - intros (r & args & [<- | [<- | [<- | []]]] & H).
    + left. apply match_static_inv in H as (f & ? & ? & _). exists f; auto.
    + right; left. apply match_hello_inv in H as (s & ? & ? & _).
      exists s; auto.
    + right; right. apply match_health_inv in H as [? _]. assumption.
Qed.

End UrlMap.

(* ===================================================================== *)
(** ** Matching and dispatch                                              *)
(* ===================================================================== *)

Section Matcher.

Variables (m : list Rule) (p method : string).

Lemma find_rule_sound (r : Rule) (args : list (string * string)) :
  find_rule m p method = Some (r, args) ->
  In r m /\ match_path r p = Some args /\ allows r method = true.
Proof.
  induction m as [|r0 m0 IH]; simpl; [discriminate|].
  destruct (match_path r0 p) as [a|] eqn:E.
  - destruct (allows r0 method) eqn:A.
    + intros [= <- <-]. auto.
    + intros H. destruct (IH H) as (? & ? & ?). auto.
  - intros H. destruct (IH H) as (? & ? & ?). auto.
Qed.

Lemma find_rule_unmatched :
  (forall r, In r m -> match_path r p = None) ->
  find_rule m p method = None.
Proof.
  induction m as [|r0 m0 IH]; simpl; [reflexivity|].
  intros H. rewrite (H r0) by auto. apply IH. auto.
Qed.


Lemma have_match_unmatched (seen : list string) :
  (forall r, In r m -> match_path r p = None) ->
  have_match_for m p method seen = seen.
Proof.
  induction m as [|r0 m0 IH]; simpl; [reflexivity|].
  intros H. rewrite (H r0) by auto. apply IH. auto.
Qed.

Lemma have_match_allowed (seen : list string) :
  (forall r, In r m -> allows r method = true) ->
  have_match_for m p method seen = seen.
Proof.
  induction m as [|r0 m0 IH]; simpl; [reflexivity|].
  intros H. rewrite (H r0) by auto.
  destruct (match_path r0 p); apply IH; auto.
Qed.

End Matcher.

Section Slashes.

Lemma merge_slashes_step (c c' : ascii) (s : string) :
  merge_slashes (String c (String c' s))
  = if Ascii.eqb c "/" && Ascii.eqb c' "/"
    then String "/" (merge_slashes s)
    else String c (merge_slashes (String c' s)).
Proof. reflexivity. Qed.

Lemma merge_slashes_keeps (n : nat) :
  forall s, String.length s <= n ->
    Str.forallb Str.not_slash (merge_slashes s)
    = Str.forallb Str.not_slash s.
Proof.
  induction n as [|n IH]; intros [|c [|c' s]] L; simpl in L;
    try reflexivity; try lia.
  rewrite merge_slashes_step.
  destruct (Ascii.eqb c "/") eqn:Hc; cbn [andb].
  - destruct (Ascii.eqb c' "/") eqn:Hc'.
    + apply Ascii.eqb_eq in Hc, Hc'. subst. reflexivity.
    + cbn [Str.forallb]. rewrite IH by (simpl; lia). reflexivity.
  - cbn [Str.forallb]. rewrite IH by (simpl; lia). reflexivity.
Qed.

Lemma merge_slashes_slash (s : string) :
  Str.forallb Str.not_slash s = false ->
  Str.forallb Str.not_slash (merge_slashes s) = false.
Proof.
  intros H. rewrite (merge_slashes_keeps (String.length s)); auto.
Qed.

Lemma merge_hello (c : ascii) (x : string) :
  Ascii.eqb c "/" = false ->
  merge_slashes ("/hello/" ++ String c x)
  = ("/hello/" ++ merge_slashes (String c x))%string.
Proof.
  intros H. cbn [append]. rewrite !merge_slashes_step.
  rewrite H, andb_false_r. reflexivity.
Qed.

End Slashes.

Section Dispatch.

Variable __name__ : string.
Variable fs : FileSystem.

Local Abbreviation M := ["GET"; "OPTIONS"; "HEAD"].

Lemma rules_methods (r : Rule) :
  In r (url_map (app __name__)) -> methods r = M.
Proof.
  rewrite app_eq. cbn [url_map In].
  intros [<- | [<- | [<- | []]]]; reflexivity.
Qed.

Lemma rules_allow_GET (r : Rule) :
  In r (url_map (app __name__)) -> allows r "GET" = true.
Proof.
  intros H. unfold allows. rewrite (rules_methods _ H). reflexivity.
Qed.


Lemma unrouted_unmatched (p : string) :
  ~ routed p ->
  forall r, In r (url_map (app __name__)) -> match_path r p = None.
Proof.
  intros Hp r Hr. destruct (match_path r p) as [args|] eqn:E;
    [|reflexivity].
  exfalso. apply Hp. apply (routed_matched __name__).
  exists r, args. auto.
Qed.

Lemma hello_path_not_static (s : string) :
  match_path static_rule ("/hello/" ++ s) = None.
Proof.
  destruct (match_path static_rule _) as [args|] eqn:E; [|reflexivity].
  apply match_static_inv in E as (f & _ & E & _). discriminate.
Qed.

Lemma hello_path_not_health (s : string) :
  match_path health_rule ("/hello/" ++ s) = None.
Proof.
  destruct (match_path health_rule _) as [args|] eqn:E; [|reflexivity].
  apply match_health_inv in E as [E _]. discriminate.
Qed.

(** The greeting route: a GET for [/hello/s] reaches [hello] with
    [name = s] and its return value is the response. *)
Lemma dispatch_hello (s : string) :
  unicode_matches s = true ->
  full_dispatch_request fs (app __name__) (GET ("/hello/" ++ s))
  = hello s.
Proof.
  intros H. unfold full_dispatch_request, match_.
  rewrite app_eq. cbn [url_map view_functions path method GET].
  change (path_part ("/hello/" ++ s)) with ("/hello/" ++ s)%string.
  cbn [find_rule]. rewrite hello_path_not_static, (match_hello s H).
  reflexivity.
Qed.

Lemma dispatch_health :
  full_dispatch_request fs (app __name__) (GET "/health") = health tt.
Proof. reflexivity. Qed.

(** Dispatch reads the URL map and the endpoint table, nothing else. *)
Lemma dispatch_ext (a b : Flask) (req : Request) :
  url_map a = url_map b -> view_functions a = view_functions b ->
  full_dispatch_request fs a req = full_dispatch_request fs b req.
Proof.
  intros Hm Hv. unfold full_dispatch_request. rewrite Hm, Hv. reflexivity.
Qed.




(** Whatever the request, a view is called with the arguments its rule
    captured: [hello] with one non-empty, slash-free [name]. *)
Lemma matched_rule (req : Request) (r : Rule)
    (args : list (string * string)) :
  match_ (url_map (app __name__)) (path req) (method req) = inl (r, args) ->
  (r = static_rule /\ exists f, args = [("filename", f)]) \/
  (r = hello_rule /\
     exists s, unicode_matches s = true /\ args = [("name", s)]) \/
  (r = health_rule /\ args = []).
Proof.
  unfold match_.
  destruct (find_rule _ (path_part (path req)) _) as [[r0 a0]|] eqn:E.
  - intros [= -> ->]. apply find_rule_sound in E as (Hr & Hm & _).
    revert Hr. rewrite app_eq. cbn [url_map In].
    intros [<- | [<- | [<- | []]]].
    + left. apply match_static_inv in Hm as (f & _ & _ & ->). eauto.
    + right; left. apply match_hello_inv in Hm as (s & ? & _ & ->). eauto.
    + right; right. apply match_health_inv in Hm as [_ ->]. auto.
  - destruct (find_rule _ (merge_slashes _) _); [discriminate|].
    destruct (have_match_for _ _ _ _); discriminate.
Qed.

End Dispatch.

Section Serving.

Lemma serve_state (run : list (FileSystem * Request)) :
  forall a : Flask,
    url_map (snd (serve a run)) = url_map a /\
    view_functions (snd (serve a run)) = view_functions a /\
    SERVER_NAME (snd (serve a run)) = SERVER_NAME a /\
    got_first_request (snd (serve a run))
    = match run with [] => got_first_request a | _ => true end.
Proof.
  induction run as [|[fs req] run IH]; intros a; [simpl; auto|].
  cbn [serve wsgi_app].
  destruct (serve _ run) as [resps a''] eqn:E.
  specialize (IH (mkFlask (import_name a) (url_map a) (view_functions a)
                    (SERVER_NAME a) true)).
  rewrite E in IH. cbn in IH |- *.
  destruct IH as (? & ? & ? & G). repeat split; try assumption.
  destruct run; assumption.
Qed.

Lemma response_after_eq (__name__ : string)
    (run : list (FileSystem * Request)) (fs : FileSystem) (req : Request) :
  response_after __name__ run fs req
  = full_dispatch_request fs (app __name__) req.
Proof.
  unfold response_after, wsgi_app. cbn [fst].
  destruct (serve_state run (app __name__)) as (Hm & Hv & _).
  apply dispatch_ext; cbn [url_map view_functions]; assumption.
Qed.

(** Serving a run request by request: the answers are those of the
    application as loaded, in order. *)
Lemma serve_responses (__name__ : string)
    (run : list (FileSystem * Request)) :
  forall a : Flask,
    url_map a = url_map (app __name__) ->
    view_functions a = view_functions (app __name__) ->
    fst (serve a run)
    = map (fun e => full_dispatch_request (fst e) (app __name__) (snd e))
        run.
Proof.
  induction run as [|[fs req] run IH]; intros a Hm Hv; [reflexivity|].
  cbn [serve wsgi_app].
  destruct (serve _ run) as [resps a''] eqn:E.
  cbn [fst snd map]. f_equal.
  - apply dispatch_ext; cbn [url_map view_functions]; assumption.
  - change resps with (fst (resps, a'')). rewrite <- E.
    apply IH; cbn [url_map view_functions]; assumption.
Qed.

End Serving.


(* ===================================================================== *)
(** ** What a request can be answered with                                *)
(* ===================================================================== *)

Section Answers.

Variable __name__ : string.
Variable fs : FileSystem.

Local Abbreviation M := ["GET"; "OPTIONS"; "HEAD"].

Lemma matched_full (req : Request) (r : Rule)
    (args : list (string * string)) :
  match_ (url_map (app __name__)) (path req) (method req) = inl (r, args) ->
  In r (url_map (app __name__)) /\
  match_path r (path_part (path req)) = Some args /\
  In (Str.upper (method req)) M.
Proof.
  unfold match_.
  destruct (find_rule _ (path_part (path req)) _) as [[r0 a0]|] eqn:E.
  - intros [= -> ->]. apply find_rule_sound in E as (Hr & Hm & Ha).
    repeat split; try assumption.
    unfold allows in Ha. rewrite (rules_methods __name__ _ Hr) in Ha.
    apply existsb_exists in Ha as (x & Hx & Ha).
    apply String.eqb_eq in Ha. rewrite Ha. exact Hx.
  - destruct (find_rule _ (merge_slashes _) _); [discriminate|].
    destruct (have_match_for _ _ _ _); discriminate.
Qed.

(** A routing error is a 404, a 405 or a redirect, never a 500. *)
Lemma unmatched_error (req : Request) (e : HTTPException) :
  match_ (url_map (app __name__)) (path req) (method req) = inr e ->
  full_dispatch_request fs (app __name__) req
  = sent (method req) (get_response e) /\
  e <> InternalServerError.
Proof.
  intros H. unfold full_dispatch_request. rewrite H. split; [reflexivity|].
  revert H. unfold match_.
  destruct (find_rule _ (path_part _) _); [discriminate|].
  destruct (find_rule _ (merge_slashes _) _); [intros [= <-]; discriminate|].
  destruct (have_match_for _ _ _ _); intros [= <-]; discriminate.
Qed.

(** The answer to a request that a rule matched: the automatic one for
    OPTIONS, otherwise what the view of the rule returns, as sent. *)
Lemma matched_answer (req : Request) (r : Rule)
    (args : list (string * string)) :
  match_ (url_map (app __name__)) (path req) (method req) = inl (r, args) ->
  let response := full_dispatch_request fs (app __name__) req in
  let p := path_part (path req) in
  (method req = "OPTIONS" /\ response = options_response) \/
  (method req <> "OPTIONS" /\
   ((exists f, p = ("/static/" ++ f)%string /\ path_matches f = true /\
       response = sent (method req)
                    match fs f with
                    | Some file =>
                        mkResponse 200 (file_mimetype file) [] None
                          (FileBody (file_data file))
                    | None => get_response NotFound
                    end) \/
    (exists s, p = ("/hello/" ++ s)%string /\ unicode_matches s = true /\
       response = sent (method req) (hello s)) \/
    (p = "/health" /\ response = sent (method req) (health tt)))).
Proof.
  intros Hm. cbv zeta. destruct (matched_full _ _ _ Hm) as (Hr & Hp & _).
  unfold full_dispatch_request. rewrite Hm.
  rewrite (app_eq __name__) in Hr |- *. cbn [url_map In] in Hr.
  cbn [view_functions].
  destruct (String.eqb (method req) "OPTIONS") eqn:Ho.
  - left. apply String.eqb_eq in Ho. split; [assumption|].
    rewrite Ho.
    destruct Hr as [<- | [<- | [<- | []]]]; reflexivity.
  - right. apply String.eqb_neq in Ho. split; [assumption|].
    destruct Hr as [<- | [<- | [<- | []]]]; rewrite andb_false_r.
    + left. apply match_static_inv in Hp as (f & Hf & -> & ->).
      exists f. repeat split; [assumption|].
      cbn [endpoint static_rule].
      change (assoc "static" _) with (Some send_static_file).
      unfold send_static_file. change (String.eqb "filename" "filename")
        with true. cbv iota.
      destruct (fs f); reflexivity.
    + right; left. apply match_hello_inv in Hp as (s & Hs & -> & ->).
      exists s. repeat split; assumption.
    + right; right. apply match_health_inv in Hp as [-> ->].
      split; reflexivity.
Qed.

Lemma sent_status (method : string) (rv : Response) :
  status_code (sent method rv) = status_code rv.
Proof. unfold sent. destruct (String.eqb method "HEAD"); reflexivity. Qed.



Lemma find_hello (method : string) (s : string) :
  In method M -> unicode_matches s = true ->
  find_rule (url_map (app __name__)) ("/hello/" ++ s) method
  = Some (hello_rule, [("name", s)]).
Proof.
  intros Hm Hs. rewrite app_eq. cbn [url_map find_rule].
  rewrite hello_path_not_static, (match_hello s Hs).
  destruct Hm as [<- | [<- | [<- | []]]]; reflexivity.
Qed.

Lemma find_health (method : string) :
  In method M ->
  find_rule (url_map (app __name__)) "/health" method
  = Some (health_rule, []).
Proof. intros [<- | [<- | [<- | []]]]; reflexivity. Qed.

Lemma find_static (method : string) (f : string) :
  In method M -> path_matches f = true ->
  find_rule (url_map (app __name__)) ("/static/" ++ f) method
  = Some (static_rule, [("filename", f)]).
Proof.
  intros Hm Hf. rewrite app_eq. cbn [url_map find_rule].
  rewrite (match_static f Hf).
  destruct Hm as [<- | [<- | [<- | []]]]; reflexivity.
Qed.

Lemma routed_found (method : string) (q : string) :
  In method M -> routed q ->
  exists rv, find_rule (url_map (app __name__)) q method = Some rv.
Proof.
  intros Hm [(f & Hf & ->) | [(s & Hs & ->) | ->]]; eexists.
  - apply find_static; assumption.
  - apply find_hello; assumption.
  - apply find_health; assumption.
Qed.

(** A GET for a path outside the three shapes: a redirect when the path
    with its doubled slashes merged has one of the shapes, a 404 when it
    has not. *)
Lemma dispatch_GET_unrouted (p : string) :
  ~ routed (path_part p) ->
  let response := full_dispatch_request fs (app __name__) (GET p) in
  (routed (merge_slashes (path_part p)) ->
   response
   = get_response (RequestRedirect (merge_slashes (path_part p)))) /\
  (~ routed (merge_slashes (path_part p)) ->
   response = get_response NotFound).
Proof.
  intros H. cbv zeta. unfold full_dispatch_request, match_.
  cbn [path method GET]. change (Str.upper "GET") with "GET".
  rewrite (find_rule_unmatched _ _ _ (unrouted_unmatched __name__ _ H)).
  split; intros R.
  - destruct (routed_found "GET" _ (or_introl eq_refl) R) as [rv ->].
    reflexivity.
  - rewrite (find_rule_unmatched _ _ _ (unrouted_unmatched __name__ _ R)).
    rewrite !have_match_unmatched
      by (apply unrouted_unmatched; assumption).
    reflexivity.
Qed.

End Answers.

(* ===================================================================== *)
(** ** Properties of the service                                          *)
(* ===================================================================== *)

Lemma substring_prefix (a b : string) :
  substring 0 (String.length a) (a ++ b) = a.
Proof.
  induction a as [|c a IH]; simpl.
  - destruct b; reflexivity.
  - rewrite IH. reflexivity.
Qed.

Lemma has_slash_unrouted (x : string) :
  Str.forallb Str.not_slash x = false -> ~ routed ("/hello/" ++ x).
Proof.
  intros H [(f & _ & E) | [(s & Hs & E) | E]]; try discriminate.
  injection E as ->. unfold unicode_matches in Hs.
  apply andb_true_iff in Hs as [_ Hs]. congruence.
Qed.

(** C1.  For every string [s] the route matcher accepts (non-empty, no
    slash), the request GET /hello/s is routed to [hello] with [name = s]
    and answered with status 200 and the JSON object whose single field
    [message] is the concatenation "Hello, " + s + "!", which is exactly
    what [hello s] returns. *)
Theorem hello_greets (__name__ : string) (fs : FileSystem) (s : string) :
  unicode_matches s = true ->
  let response :=
    full_dispatch_request fs (app __name__) (GET ("/hello/" ++ s)) in
  match_path hello_rule ("/hello/" ++ s) = Some [("name", s)] /\
  response = hello s /\
  status_code response = 200%Z /\
  body response
  = JsonBody (JObject [("message", JString ("Hello, " ++ s ++ "!"))]).
Proof.
  intros H response. subst response. rewrite (dispatch_hello _ _ _ H).
  repeat split. apply match_hello, H.
Qed.

Lemma hello_greets_witness :
  unicode_matches "World" = true /\
  status_code
    (full_dispatch_request no_static_folder (app "app") (GET "/hello/World"))
  = 200%Z /\
  body
    (full_dispatch_request no_static_folder (app "app") (GET "/hello/World"))
  = JsonBody (JObject [("message", JString "Hello, World!")]).
Proof.
  split; [reflexivity|].
  apply (hello_greets "app" no_static_folder "World"). reflexivity.
Defined.

(** C2.  GET /health returns status 200 with body {"status": "healthy"}
    whatever requests were served before; a second GET /health right after
    the first returns the same response; and [health] itself never fails. *)
Theorem health_always_healthy (__name__ : string)
    (run : list (FileSystem * Request)) (fs1 fs2 : FileSystem) :
  let first := response_after __name__ run fs1 (GET "/health") in
  let second :=
    response_after __name__ (run ++ [(fs1, GET "/health")]) fs2
      (GET "/health") in
  status_code first = 200%Z /\
  body first = JsonBody (JObject [("status", JString "healthy")]) /\
  second = first /\
  health_view fs1 [] = inl (health tt) /\
  first = health tt.
Proof.
  cbv zeta. rewrite !response_after_eq, !dispatch_health.
  repeat split.
Qed.

(** C3.  [hello] succeeds on every string: called with any [name] at all
    (empty, with slashes, with special characters) it returns a 200
    response and raises nothing, and the name sits unchanged in the
    message, between "Hello, " and "!". *)
Theorem hello_total (fs : FileSystem) (name : string) :
  hello_view fs [("name", name)] = inl (hello name) /\
  status_code (hello name) = 200%Z /\
  getitem (json (hello name)) "message"
  = Some (JString ("Hello, " ++ name ++ "!")) /\
  substring 7 (String.length name) ("Hello, " ++ name ++ "!") = name /\
  String.length ("Hello, " ++ name ++ "!") = String.length name + 8.
Proof.
  repeat split.
  - cbn [append substring]. apply substring_prefix.
  - rewrite !length_app. simpl. lia.
Qed.






(** C7, as stated, fails: an environment variable does decide whether the
    service binds.  With FLASK_RUN_FROM_CLI set to "true" the call
    [app.run] is ignored and no server is started. *)
Lemma run_ignored_under_flask_cli :
  main "__main__" ["app.py"] environ_FLASK_RUN_FROM_CLI = None /\
  main "__main__" ["app.py"] (fun _ => None) = Some ("0.0.0.0", 5000%Z).
Proof. split; reflexivity. Qed.

(** C7, amended.  Started directly ([__name__] is "__main__"), the
    program hands the address 0.0.0.0:5000 to the server whatever the
    command-line arguments and the environment are, with one exception:
    when the environment variable FLASK_RUN_FROM_CLI is "true" the call
    is ignored and no server is started.  No argument, environment
    variable or setting of the application makes it bind anywhere else. *)
Theorem main_binds (argv : list string) (environ : string -> option string) :
  (environ "FLASK_RUN_FROM_CLI" <> Some "true" ->
   main "__main__" argv environ = Some ("0.0.0.0", 5000%Z)) /\
  (environ "FLASK_RUN_FROM_CLI" = Some "true" ->
   main "__main__" argv environ = None) /\
  (forall address,
      main "__main__" argv environ = Some address ->
      address = ("0.0.0.0", 5000%Z)) /\
  (forall a : Flask,
      environ "FLASK_RUN_FROM_CLI" <> Some "true" ->
      run environ a (Some "0.0.0.0") (Some 5000%Z)
      = Some ("0.0.0.0", 5000%Z)).
Proof.
  assert (R : forall a : Flask,
             environ "FLASK_RUN_FROM_CLI" <> Some "true" ->
             run environ a (Some "0.0.0.0") (Some 5000%Z)
             = Some ("0.0.0.0", 5000%Z)).
  { intros a H. unfold run.
    destruct (environ "FLASK_RUN_FROM_CLI") as [v|] eqn:E; [|reflexivity].
    destruct (String.eqb v "true") eqn:V; [|reflexivity].
    apply String.eqb_eq in V. subst v. contradiction H. reflexivity. }
  split; [apply R|]. split; [|split; [|exact R]].
  - intros E. unfold main, run. rewrite E. reflexivity.
  - intros address. unfold main, run.
    change (String.eqb "__main__" "__main__") with true. cbv iota.
    destruct (environ "FLASK_RUN_FROM_CLI") as [v|].
    + destruct (String.eqb v "true"); [discriminate|].
      intros [= <-]. reflexivity.
    + intros [= <-]. reflexivity.
Qed.

Lemma main_binds_witness :
  main "__main__" ["app.py"; "--port"; "8000"] environ_FLASK_DEBUG
  = Some ("0.0.0.0", 5000%Z) /\
  main "__main__" ["app.py"; "--port"; "8000"] environ_FLASK_RUN_FROM_CLI
  = None.
Proof.
  split.
  - apply (proj1
      (main_binds ["app.py"; "--port"; "8000"] environ_FLASK_DEBUG)).
    discriminate.
  - apply (proj1 (proj2
      (main_binds ["app.py"; "--port"; "8000"] environ_FLASK_RUN_FROM_CLI))).
    reflexivity.
Defined.

(** C8, as stated, fails: after import the URL map does not hold exactly
    the two patterns of app.py; the constructor's static rule is there. *)
Lemma url_map_has_static_rule :
  map rule (url_map (app "app")) <> ["/hello/<name>"; "/health"] /\
  In "/static/<path:filename>" (map rule (url_map (app "app"))).
Proof. split; [discriminate|]. left. reflexivity. Qed.

(** C8, amended.  Importing the module succeeds and leaves a URL map with
    the rule /static/<path:filename> of Flask's constructor followed by
    /hello/<name> and /health, bound to [send_static_file], [hello] and
    [health].  Serving requests changes neither the rules nor the
    bindings, and once a request has been served [add_url_rule] refuses
    to add or rebind a route. *)
Theorem url_map_fixed (__name__ : string)
    (run : list (FileSystem * Request)) (fs : FileSystem) (req : Request)
    (new_rule new_endpoint : string) (view_func : View) :
  load __name__ = Some (app __name__) /\
  map (fun r => (rule r, endpoint r)) (url_map (app __name__))
  = [("/static/<path:filename>", "static"); ("/hello/<name>", "hello");
     ("/health", "health")] /\
  view_functions (app __name__)
  = [("static", send_static_file); ("hello", hello_view);
     ("health", health_view)] /\
  url_map (snd (serve (app __name__) run)) = url_map (app __name__) /\
  view_functions (snd (serve (app __name__) run))
  = view_functions (app __name__) /\
  add_url_rule new_rule new_endpoint view_func
    (snd (serve (app __name__) ((fs, req) :: run)))
  = None.
Proof.
  destruct (serve_state run (app __name__)) as (Hm & Hv & _).
  destruct (serve_state ((fs, req) :: run) (app __name__))
    as (_ & _ & _ & G).
  repeat split; try assumption.
  unfold add_url_rule. rewrite G. reflexivity.
Qed.

(** C9, as stated, fails for a name that starts with a slash:
    GET /hello//World is answered with a 308 redirect to /hello/World. *)
Lemma double_slash_redirects :
  Str.forallb Str.not_slash "/World" = false /\
  full_dispatch_request no_static_folder (app "app")
    (GET ("/hello/" ++ "/World"))
  = get_response (RequestRedirect "/hello/World") /\
  status_code
    (full_dispatch_request no_static_folder (app "app")
       (GET ("/hello/" ++ "/World")))
  <> 404%Z.
Proof. repeat split; discriminate. Qed.

(** C9, amended.  GET /hello/ (empty name) is a 404.  GET /hello/x with a
    slash in [x] never reaches [hello]: when the path with its doubled
    slashes merged has the shape of a route the answer is a 308 redirect
    to the merged path, and in every other case it is the 404 response;
    the merged path has no such shape when [x] does not begin with a
    slash.  Whatever the request, [hello] is only ever called with a
    single non-empty name without a slash. *)
Theorem hello_rejects_bad_names (__name__ : string) (fs : FileSystem)
    (x : string) :
  Str.forallb Str.not_slash x = false ->
  let merged := merge_slashes ("/hello/" ++ x) in
  let response :=
    full_dispatch_request fs (app __name__) (GET ("/hello/" ++ x)) in
  full_dispatch_request fs (app __name__) (GET "/hello/")
  = get_response NotFound /\
  (routed merged -> response = get_response (RequestRedirect merged)) /\
  (~ routed merged -> response = get_response NotFound) /\
  (String.prefix "/" x = false ->
   ~ routed merged /\ response = get_response NotFound) /\
  (forall req r args,
      match_ (url_map (app __name__)) (path req) (method req)
      = inl (r, args) ->
      endpoint r = "hello" ->
      exists s, args = [("name", s)] /\ unicode_matches s = true).
Proof.
  intros H merged response. subst merged response.
  pose proof (dispatch_GET_unrouted __name__ fs ("/hello/" ++ x)
                (has_slash_unrouted x H)) as [D1 D2].
  change (path_part ("/hello/" ++ x)) with ("/hello/" ++ x)%string in D1, D2.
  split; [reflexivity|]. split; [exact D1|]. split; [exact D2|]. split.
  - intros P. destruct x as [|c x]; [discriminate|].
    assert (Hc : Ascii.eqb c "/" = false).
    { cbn [prefix] in P. destruct (ascii_dec "/" c) as [<-|N].
      - destruct x; discriminate.
      - apply Ascii.eqb_neq. congruence. }
    assert (U : ~ routed (merge_slashes ("/hello/" ++ String c x))).
    { rewrite (merge_hello _ _ Hc).
      apply has_slash_unrouted, merge_slashes_slash, H. }
    split; [exact U|]. apply D2, U.
  - intros req r args Hm He.
    destruct (matched_rule _ _ _ _ Hm)
      as [[-> _] | [[-> (s & Hs & ->)] | [-> _]]]; try discriminate.
    exists s. auto.
Qed.

Lemma hello_rejects_bad_names_witness :
  Str.forallb Str.not_slash "/a/b" = false /\
  full_dispatch_request no_static_folder (app "app") (GET "/hello//World")
  = get_response (RequestRedirect "/hello/World") /\
  full_dispatch_request no_static_folder (app "app") (GET "/hello//a/b")
  = get_response NotFound /\
  full_dispatch_request no_static_folder (app "app") (GET "/hello/a/b")
  = get_response NotFound.
Proof.
  split; [reflexivity|]. split; [|split].
  - apply (proj1 (proj2
      (hello_rejects_bad_names "app" no_static_folder "/World" eq_refl))).
    right; left. exists "World". split; reflexivity.
  - apply (proj1 (proj2 (proj2
      (hello_rejects_bad_names "app" no_static_folder "/a/b" eq_refl)))).
    intros [(f & _ & E) | [(s & Hs & E) | E]]; try discriminate.
    cbn in E. injection E as <-. discriminate.
  - apply (proj1 (proj2 (proj2 (proj2
      (hello_rejects_bad_names "app" no_static_folder "a/b" eq_refl))))).
    reflexivity.
Defined.

(** C10.  [hello] is injective: two names whose responses carry the same
    [message] are the same name. *)
Theorem hello_injective (a b : string) :
  getitem (json (hello a)) "message" = getitem (json (hello b)) "message" ->
  a = b.
Proof.
  cbn. intros [= H]. apply (append_inv_tail a b "!"). exact H.
Qed.

Lemma hello_injective_witness :
  getitem (json (hello "World")) "message"
  = getitem (json (hello "World")) "message" /\
  "World" = "World".
Proof.
  split; [reflexivity|].
  apply (hello_injective "World" "World"). reflexivity.
Defined.

(* ===================================================================== *)
(** ** Further properties                                                 *)
(* ===================================================================== *)

(** X1.  The guard [if __name__ == '__main__']: a server is started
    exactly when the module runs under the name "__main__" outside the
    flask command, and then at 0.0.0.0:5000; imported under any other
    name (as test_app.py does) the module starts none, whatever the
    arguments and the environment. *)
Theorem server_started_iff (__name__ : string) (argv : list string)
    (environ : string -> option string) (address : string * Z) :
  main __name__ argv environ = Some address <->
  (__name__ = "__main__" /\
   environ "FLASK_RUN_FROM_CLI" <> Some "true" /\
   address = ("0.0.0.0", 5000%Z)).
Proof.
  unfold main, run. split.
  - destruct (String.eqb __name__ "__main__") eqn:N; [|discriminate].
    apply String.eqb_eq in N.
    destruct (environ "FLASK_RUN_FROM_CLI") as [v|] eqn:E.
    + destruct (String.eqb v "true") eqn:V; [discriminate|].
      apply String.eqb_neq in V. intros [= <-].
      repeat split; congruence.
    + intros [= <-]. repeat split; congruence.
  - intros (-> & E & ->). change (String.eqb "__main__" "__main__") with true.
    cbv iota. destruct (environ "FLASK_RUN_FROM_CLI") as [v|]; [|reflexivity].
    destruct (String.eqb v "true") eqn:V; [|reflexivity].
    apply String.eqb_eq in V. subst v. contradiction E. reflexivity.
Qed.

Lemma server_started_iff_witness :
  main "__main__" ["app.py"] (fun _ => None) = Some ("0.0.0.0", 5000%Z).
Proof.
  apply (proj2 (server_started_iff "__main__" ["app.py"] (fun _ => None)
                  ("0.0.0.0", 5000%Z))).
  repeat split. discriminate.
Defined.





(** X4.  Off the static paths the service never answers with a server
    error: the variable of the rule /hello/<name> is the parameter of
    [hello], [health] takes none, and every endpoint of the map is bound,
    so each such request is answered 200, 308, 404 or 405. *)
Theorem never_a_server_error (__name__ : string) (fs : FileSystem)
    (REQUEST_METHOD PATH_INFO : string) :
  ~ is_static_path (path_part PATH_INFO) ->
  In (status_code
        (full_dispatch_request fs (app __name__)
           (Request_ REQUEST_METHOD PATH_INFO)))
    [200; 308; 404; 405]%Z.
Proof.
  intros N. set (req := Request_ REQUEST_METHOD PATH_INFO).
  destruct (match_ (url_map (app __name__)) (path req) (method req))
    as [[r args]|e] eqn:E.
  - destruct (matched_answer __name__ fs _ _ _ E)
      as [[_ R] | [_ [(f & Hp & Hf & _) | [(s & _ & _ & R) | [_ R]]]]].
    + rewrite R. cbn; auto.
    + exfalso. apply N. exists f. auto.
    + rewrite R, sent_status. cbn; auto.
    + rewrite R, sent_status. cbn; auto.
  - destruct (unmatched_error __name__ fs _ _ E) as [R X].
    rewrite R, sent_status.
    destruct e; cbn; auto. contradiction X. reflexivity.
Qed.

Lemma never_a_server_error_witness :
  In (status_code
        (full_dispatch_request no_static_folder (app "app")
           (Request_ "delete" "/hello/World")))
    [200; 308; 404; 405]%Z.
Proof.
  apply (never_a_server_error "app" no_static_folder "delete"
           "/hello/World").
  intros (f & _ & E). discriminate.
Defined.

(** X5.  A 200 is only ever given to a GET, HEAD or OPTIONS request (in
    any letter case) whose path has one of the three shapes
    /static/..., /hello/<name>, /health. *)
Theorem ok_needs_route (__name__ : string) (fs : FileSystem)
    (REQUEST_METHOD PATH_INFO : string) :
  status_code
    (full_dispatch_request fs (app __name__)
       (Request_ REQUEST_METHOD PATH_INFO))
  = 200%Z ->
  In (Str.upper REQUEST_METHOD) ["GET"; "OPTIONS"; "HEAD"] /\
  routed (path_part PATH_INFO).
Proof.
  intros H. set (req := Request_ REQUEST_METHOD PATH_INFO) in H.
  destruct (match_ (url_map (app __name__)) (path req) (method req))
    as [[r args]|e] eqn:E.
  - destruct (matched_full __name__ _ _ _ E) as (Hr & Hp & Hm).
    cbn [method req Request_] in Hm. rewrite upper_idem in Hm.
    split; [assumption|]. apply (routed_matched __name__). eauto.
  - destruct (unmatched_error __name__ fs _ _ E) as [R _].
    rewrite R, sent_status in H. destruct e; discriminate.
Qed.

Lemma ok_needs_route_witness :
  In (Str.upper "head") ["GET"; "OPTIONS"; "HEAD"] /\
  routed (path_part "/health").
Proof.
  apply (ok_needs_route "app" no_static_folder "head" "/health").
  reflexivity.
Defined.

(** X6.  Both routes are declared without [methods], so they also answer
    HEAD: status 200 and Content-Type application/json as for GET, with
    an empty body. *)
Theorem head_requests (__name__ : string) (fs : FileSystem) (s : string) :
  unicode_matches s = true ->
  full_dispatch_request fs (app __name__)
    (mkRequest "HEAD" ("/hello/" ++ s))
  = mkResponse 200 "application/json" [] None EmptyBody /\
  full_dispatch_request fs (app __name__) (mkRequest "HEAD" "/health")
  = mkResponse 200 "application/json" [] None EmptyBody.
Proof.
  intros H. split; [|reflexivity].
  unfold full_dispatch_request, match_. cbn [path method].
  change (Str.upper "HEAD") with "HEAD".
  change (path_part ("/hello/" ++ s)) with ("/hello/" ++ s)%string.
  rewrite (find_hello __name__ "HEAD" s) by (cbn; auto).
  reflexivity.
Qed.

Lemma head_requests_witness :
  full_dispatch_request no_static_folder (app "app")
    (mkRequest "HEAD" "/hello/World")
  = mkResponse 200 "application/json" [] None EmptyBody.
Proof.
  exact (proj1 (head_requests "app" no_static_folder "World" eq_refl)).
Defined.

(** X7.  OPTIONS on a path of any of the three shapes is answered by the
    framework, not by a handler: 200, an empty body, and Allow listing
    GET, OPTIONS and HEAD; the static folder is not consulted. *)
Theorem options_requests (__name__ : string) (fs : FileSystem)
    (p : string) :
  routed (path_part p) ->
  full_dispatch_request fs (app __name__) (mkRequest "OPTIONS" p)
  = options_response.
Proof.
  intros [(f & Hf & E) | [(s & Hs & E) | E]];
    unfold full_dispatch_request, match_; cbn [path method];
    change (Str.upper "OPTIONS") with "OPTIONS"; rewrite E.
  - rewrite (find_static __name__ "OPTIONS" f) by (cbn; auto). reflexivity.
  - rewrite (find_hello __name__ "OPTIONS" s) by (cbn; auto). reflexivity.
  - reflexivity.
Qed.

Lemma options_requests_witness :
  full_dispatch_request no_static_folder (app "app")
    (mkRequest "OPTIONS" "/hello/World")
  = options_response.
Proof.
  apply (options_requests "app" no_static_folder "/hello/World").
  right; left. exists "World". split; reflexivity.
Defined.

(** X8.  The handlers read nothing from the file system: the answer to a
    request whose path is not under /static/ is the same whatever the
    static folder holds. *)
Theorem static_folder_irrelevant (__name__ : string)
    (fs1 fs2 : FileSystem) (req : Request) :
  ~ is_static_path (path_part (path req)) ->
  full_dispatch_request fs1 (app __name__) req
  = full_dispatch_request fs2 (app __name__) req.
Proof.
  intros N.
  destruct (match_ (url_map (app __name__)) (path req) (method req))
    as [[r args]|e] eqn:E.
  - destruct (matched_full __name__ _ _ _ E) as (Hr & Hp & _).
    unfold full_dispatch_request. rewrite E.
    rewrite (app_eq __name__) in Hr |- *. cbn [url_map In] in Hr.
    destruct Hr as [<- | [<- | [<- | []]]].
    + exfalso. apply N.
      apply match_static_inv in Hp as (f & Hf & Hp & _). exists f. auto.
    + reflexivity.
    + reflexivity.
  - destruct (unmatched_error __name__ fs1 _ _ E) as [-> _].
    destruct (unmatched_error __name__ fs2 _ _ E) as [-> _].
    reflexivity.
Qed.

Lemma static_folder_irrelevant_witness :
  full_dispatch_request no_static_folder (app "app") (GET "/health")
  = full_dispatch_request
      (fun _ => Some (mkFile "text/plain" "x")) (app "app") (GET "/health").
Proof.
  apply (static_folder_irrelevant "app" no_static_folder
           (fun _ => Some (mkFile "text/plain" "x")) (GET "/health")).
  intros (f & _ & E). discriminate.
Defined.

Section Tests.

Import test_app.

Lemma run_test_ok (t : Test) (fs : FileSystem) (e : Env) :
  loaded e ->
  fst (run_test t fs e) = true /\ loaded (snd (run_test t fs e)).
Proof.
  intros [Hm Hv].
  destruct t; unfold run_test, hello_endpoint, health_endpoint, get,
    client, wsgi_app; cbn [application TESTING];
    match goal with
    | |- context [full_dispatch_request fs ?a ?r] =>
        rewrite (dispatch_ext fs a (app "app") r Hm Hv)
    end.
  - pose proof (dispatch_hello "app" fs "World" eq_refl) as D.
    change ("/hello/" ++ "World")%string with "/hello/World" in D.
    rewrite D. split; [reflexivity|]. split; assumption.
  - rewrite (dispatch_health "app" fs).
    split; [reflexivity|]. split; assumption.
Qed.

(** X9.  The tests of test_app.py pass in every order and however often
    they are run on the one imported application, also after other
    requests have been served and whatever the static folder holds. *)
Theorem tests_pass (run : list (FileSystem * Request)) (testing : bool)
    (tests : list (Test * FileSystem)) :
  fst (session tests (mkEnv (snd (serve (app "app") run)) testing))
  = map (fun _ => true) tests.
Proof.
  assert (L : loaded (mkEnv (snd (serve (app "app") run)) testing)).
  { destruct (serve_state run (app "app")) as (Hm & Hv & _).
    split; assumption. }
  revert L. generalize (mkEnv (snd (serve (app "app") run)) testing).
  induction tests as [|[t fs] tests IH]; intros e L; [reflexivity|].
  cbn [session map].
  destruct (run_test_ok t fs e L) as [P L'].
  destruct (run_test t fs e) as [passed e'] eqn:R.
  cbn [fst snd] in P, L'. specialize (IH e' L').
  destruct (session tests e') as [results e''].
  cbn [fst] in IH |- *. rewrite P, IH. reflexivity.
Qed.

End Tests.
